(** * Medical Insurance Cost Predictor: the prediction pipeline of [app.py]

    A shallow embedding of the Streamlit script [src/app.py]: the BMI
    expression (line 55), the categorical encoding (lines 77-80), the cached
    model loading (lines 15-23), the call of the pickled model (line 90) and
    the three-way cost commentary (lines 100-105), followed by the properties
    the specification states about them. *)

From Stdlib Require Import ZArith QArith Qabs Lia Lqa List Ascii String.
From stdpp Require Import base gmap strings.

Local Open Scope string_scope.
Local Open Scope Z_scope.

(** ** Python values *)

(** Exceptions the script can raise.  Nothing in [app.py] catches any of
    them: an exception ends the current run of the script. *)
Inductive exn : Type :=
  | KeyError (key : string)
  | ZeroDivisionError
  | OverflowError
  | FileNotFoundError
  | PermissionError
  | UnpicklingError
  | InferenceError
  | EOFError
  | AttributeError
  | ImportError
  | IndexError.

Inductive result (A : Type) : Type :=
  | Ok (a : A)
  | Err (e : exn).
Arguments Ok {A} a.
Arguments Err {A} e.

Definition is_ok {A} (r : result A) : bool :=
  match r with Ok _ => true | Err _ => false end.

(** *** Strings

    A Python [str] is modelled by its UTF-8 bytes.  [str.lower] is modelled
    on the ASCII letters, the other bytes are kept.  For the lookup in
    [region_map] this is exact: the only code points outside ASCII whose
    lower-casing contains an ASCII letter are U+212A (to k) and U+0130 (to i
    followed by U+0307), and no key of [region_map] has a k or ends up equal
    to a string holding U+0307.  It is exact for whether the lookup
    succeeds, not for the key that a failed lookup reports: on a region
    with letters outside ASCII (an accented E, say) Python lower-cases
    these too, so the key of the model is the key of the [KeyError] for
    ASCII regions only, and no property below relies on it for others. *)
Module PyStr.

Definition lower_char (c : ascii) : ascii :=
  let n := N_of_ascii c in
  if ((65 <=? n) && (n <=? 90))%N then ascii_of_N (n + 32) else c.

Fixpoint lower (s : string) : string :=
  match s with
  | EmptyString => EmptyString
  | String c s' => String (lower_char c) (lower s')
  end.

End PyStr.

(** ** The categorical encoding (lines 77-80)

<<
    sex_num = 0 if sex == "Female" else 1
    smoker_num = 0 if smoker == "No" else 1
    region_map = {"southwest": 0, "southeast": 1, "northwest": 2, "northeast": 3}
    region_num = region_map[region.lower()]
>> *)

Definition sex_num (sex : string) : Z :=
  if decide (sex = "Female") then 0 else 1.

Definition smoker_num (smoker : string) : Z :=
  if decide (smoker = "No") then 0 else 1.

Definition region_map : gmap string Z :=
  {[ "southwest" := 0; "southeast" := 1; "northwest" := 2; "northeast" := 3 ]}.

(** [d[k]] on a dict: the value, or [KeyError k]. *)
Definition dict_getitem (d : gmap string Z) (k : string) : result Z :=
  match d !! k with
  | Some v => Ok v
  | None => Err (KeyError k)
  end.

Definition region_num (region : string) : result Z :=
  dict_getitem region_map (PyStr.lower region).

(** ** Floating point

    A Python [float] is an IEEE 754 binary64 number.  A finite one is
    modelled by the rational it denotes (so [0.0] and [-0.0], which Python's
    [==] does not tell apart, are one value); the type also holds rationals
    that are no binary64 number, which only makes the statements about
    [classify] more general.  Every arithmetic step is the exact rational
    result followed by one rounding to 53 bits. *)
Module Binary64.

Inductive mode : Type := Nearest | Down | Up.

(** [n / d] (for [0 < d]) as an integer: ties to even, floor or ceiling. *)
Definition round_div (md : mode) (n d : Z) : Z :=
  let (fl, r) := Z.div_eucl n d in
  match md with
  | Down => fl
  | Up => if r =? 0 then fl else fl + 1
  | Nearest =>
      match 2 * r ?= d with
      | Lt => fl
      | Gt => fl + 1
      | Eq => if Z.even fl then fl else fl + 1
      end
  end.

Definition round_int (md : mode) (q : Q) : Z :=
  round_div md (Qnum q) (Zpos (Qden q)).

(** [floor (log2 q)] for [0 < q]. *)
Definition ilog2 (q : Q) : Z :=
  let l := Z.log2 (Qnum q) - Z.log2 (Zpos (Qden q)) in
  if Qle_bool (Qpower 2 l) q then l else l - 1.

(** The exponent of the last place of [q]: 52 below the leading bit, and
    never below that of the subnormal numbers. *)
Definition ulp_exp (q : Q) : Z := Z.max (ilog2 (Qabs q) - 52) (-1074).

(** Rounding of the real [q] to binary64: the integer [m] nearest (or
    next below, or next above) to [q / 2^e], times [2^e], as a fraction in
    lowest terms.  [None] when the rounded value [m * 2^e] is beyond the
    largest finite number, that is when [2^1024 <= |m| * 2^e] (IEEE
    overflow); as [|m| <= 2^53] this needs [971 <= e]. *)
Definition round (md : mode) (q : Q) : option Q :=
  if Qeq_bool q 0 then Some 0%Q
  else
    let e := ulp_exp q in
    let m := round_int md (q * Qpower 2 (- e)) in
    if (971 <=? e) && (2 ^ (1024 - e) <=? Z.abs m) then None
    else Some (Qred (inject_Z m * Qpower 2 e)).

Definition RN : Q -> option Q := round Nearest.

(** A decimal literal of the source text, [n / 10^k], as a float. *)
Definition literal (n : Z) (scale : positive) : Q :=
  match RN (n # scale) with Some r => r | None => 0%Q end.

End Binary64.

Inductive pyfloat : Type :=
  | Fin (q : Q)
  | PInf
  | NInf
  | NaN.

Global Instance result_ret : MRet result := fun _ a => Ok a.
Global Instance result_bind : MBind result := fun _ _ f r =>
  match r with
  | Ok a => f a
  | Err e => Err e
  end.

(** The operators of Python's [int] and [float] that [app.py] uses, as
    CPython implements them. *)
Module PyFloat.
Import Binary64.

(** [a / b] on two [int]s: the quotient correctly rounded;
    [ZeroDivisionError] on [b = 0], [OverflowError] when the quotient is
    too large for a float. *)
Definition int_truediv (a b : Z) : result pyfloat :=
  if b =? 0 then Err ZeroDivisionError
  else match RN (inject_Z a / inject_Z b) with
       | Some r => Ok (Fin r)
       | None => Err OverflowError
       end.

(** The conversion of an [int] operand to a float. *)
Definition of_int (n : Z) : result Q :=
  match RN (inject_Z n) with
  | Some r => Ok r
  | None => Err OverflowError
  end.

(** [x ** 2]: CPython hands the finite case to the C library's
    [pow (|x|, 2.0)], which IEEE 754 does not require to be correctly
    rounded.  [libm_rounds_up] says, for each argument, to which of the two
    floats around the exact square the library rounds; when the square is
    itself a float both directions give it.  An infinite result raises
    [OverflowError]. *)
Definition pow2 (libm_rounds_up : Q -> bool) (x : pyfloat) : result pyfloat :=
  match x with
  | NaN => Ok NaN
  | PInf | NInf => Ok PInf
  | Fin q =>
      let a := Qabs q in
      match round (if libm_rounds_up a then Up else Down) (a * a) with
      | Some r => Ok (Fin r)
      | None => Err OverflowError
      end
  end.

(** [a / b] with [a] an [int] and [b] a float: [a] is converted first,
    a zero divisor raises, and an overflow gives an infinity. *)
Definition int_div_float (a : Z) (b : pyfloat) : result pyfloat :=
  x ← of_int a;
  match b with
  | NaN => Ok NaN
  | PInf | NInf => Ok (Fin 0)
  | Fin q =>
      if Qeq_bool q 0 then Err ZeroDivisionError
      else match RN (x / q) with
           | Some r => Ok (Fin r)
           | None => Ok (if Qle_bool 0 (x / q) then PInf else NInf)
           end
  end.

(** [round (x, 2)]: the decimal with two places nearest to the exact
    value of [x] (ties to the even last digit), then the float nearest to
    that decimal.  Infinities and NaN are returned as they are. *)
Definition round2 (x : pyfloat) : result pyfloat :=
  match x with
  | Fin q =>
      match RN (round_int Nearest (q * 100) # 100) with
      | Some r => Ok (Fin r)
      | None => Err OverflowError
      end
  | _ => Ok x
  end.

(** [x < n] and [n <= x] for a float [x] and an [int] literal [n]; every
    comparison with NaN is false. *)
Definition lt_int (x : pyfloat) (n : Z) : bool :=
  match x with
  | Fin q => negb (Qle_bool (inject_Z n) q)
  | NInf => true
  | PInf | NaN => false
  end.

Definition int_le (n : Z) (x : pyfloat) : bool :=
  match x with
  | Fin q => Qle_bool (inject_Z n) q
  | PInf => true
  | NInf | NaN => false
  end.

End PyFloat.

(** ** The BMI expression (lines 53-55)

<<
    height = st.slider("Your Height (cm)", 140, 220, 175)
    weight = st.slider("Your Weight (kg)", 40, 150, 70)
    bmi_calculated = round(weight / ((height / 100) ** 2), 2)
>> *)

Definition height_slider (height : Z) : Prop := 140 <= height <= 220.
Definition weight_slider (weight : Z) : Prop := 40 <= weight <= 150.

Section BMI.

(** The rounding direction of the C library's [pow] at each argument. *)
Variable pow_rounds_up : Q -> bool.

Definition bmi_calculated (height weight : Z) : result pyfloat :=
  metres ← PyFloat.int_truediv height 100;
  square ← PyFloat.pow2 pow_rounds_up metres;
  ratio ← PyFloat.int_div_float weight square;
  PyFloat.round2 ratio.

End BMI.

(** ** The cost commentary (lines 100-105)

<<
    if cost < 5000:            st.info(...)
    elif 5000 <= cost < 15000: st.warning(...)
    else:                      st.error(...)
>> *)

Inductive CostTier : Type := Low | Moderate | High.

Definition classify (cost : pyfloat) : CostTier :=
  if PyFloat.lt_int cost 5000 then Low
  else if PyFloat.int_le 5000 cost && PyFloat.lt_int cost 15000 then Moderate
  else High.

(** The text of [f"${cost:,.2f}"] (line 98): the amount in hundredths, to
    the nearest (ties to even), or the name of a value that is no number. *)
Inductive shown_cost : Type :=
  | Hundredths (n : Z)
  | ShownInf
  | ShownNegInf
  | ShownNaN.

Definition format_2f (cost : pyfloat) : shown_cost :=
  match cost with
  | Fin q => Hundredths (Binary64.round_int Binary64.Nearest (q * 100))
  | PInf => ShownInf
  | NInf => ShownNegInf
  | NaN => ShownNaN
  end.

(** ** The model and the script *)

(** The one-row [pd.DataFrame] of lines 82-85, column by column. *)
Record FeatureVector : Type := {
  f_age : Z;
  f_sex : Z;
  f_bmi : pyfloat;
  f_children : Z;
  f_smoker : Z;
  f_region : Z
}.

(** Modelled from the spec: the pickled model [Medical.pickle] is not among
    the sources.  The spec (4.3, 6) treats it as a black box with one
    capability, [predict], a pure function from a feature record to a number
    that may fail with an InferenceError; for the one-row frame the script
    reads the single entry of the returned array, [prediction[0]]. *)
Record artifact : Type := {
  predict : FeatureVector -> result pyfloat
}.

(** How [pickle.load] fails on a file that is no pickle of a model: with
    [UnpicklingError] on garbled bytes, [EOFError] on an empty or truncated
    file, and, as the documentation of [pickle] lists, [AttributeError],
    [ImportError] or [IndexError]. *)
Inductive unpickling : Type :=
  | Garbled
  | Truncated
  | NoAttribute
  | NoModule
  | NoIndex.

Definition unpickling_error (why : unpickling) : exn :=
  match why with
  | Garbled => UnpicklingError
  | Truncated => EOFError
  | NoAttribute => AttributeError
  | NoModule => ImportError
  | NoIndex => IndexError
  end.

(** What [os.path.join (..., 'Medical.pickle')] names at the time of a run. *)
Inductive file_state : Type :=
  | Missing
  | Unreadable
  | Corrupt (why : unpickling)
  | Pickled (m : artifact).

(** The widget values of one run: the sliders, the number inputs, the select
    boxes, and whether the button was pressed. *)
Record widgets : Type := {
  height : Z;
  weight : Z;
  age : Z;
  sex : string;
  children : Z;
  smoker : string;
  region : string;
  button : bool
}.

(** What a run does that the claims are about: the two metrics, the call of
    the model, the balloons and the commentary.  Titles, markdown, the
    sidebar, the spinner with its one-second sleep and the footer carry no
    data and are left out. *)
Inductive event : Type :=
  | BmiMetric (value : pyfloat)
  | Predict (input_data : FeatureVector)
  | Balloons
  | CostMetric (text : shown_cost)
  | Commentary (tier : CostTier).

(** The state a run works on: the process-wide store of [st.cache_resource]
    for [load_model], and what the run has put on the page so far. *)
Record state : Type := {
  resource_cache : option artifact;
  page : list event
}.

Definition M (A : Type) : Type := state -> result A * state.

Global Instance M_ret : MRet M := fun _ a s => (Ok a, s).
Global Instance M_bind : MBind M := fun _ _ f c s =>
  match c s with
  | (Ok a, s') => f a s'
  | (Err e, s') => (Err e, s')
  end.

Definition lift {A} (r : result A) : M A := fun s => (r, s).

Definition emit (e : event) : M unit := fun s =>
  (Ok tt, {| resource_cache := resource_cache s; page := page s ++ [e] |}).

(** Lines 18-21, the body of [load_model]: [open] fails on a missing or
    unreadable file, [pickle.load] on one that is no pickle. *)
Definition load_model_body (file : file_state) : result artifact :=
  match file with
  | Missing => Err FileNotFoundError
  | Unreadable => Err PermissionError
  | Corrupt why => Err (unpickling_error why)
  | Pickled m => Ok m
  end.

(** [@st.cache_resource]: the body runs when the store is empty, its value is
    stored, and an exception stores nothing. *)
Definition load_model (file : file_state) : M artifact := fun s =>
  match resource_cache s with
  | Some m => (Ok m, s)
  | None =>
      match load_model_body file with
      | Ok m => (Ok m, {| resource_cache := Some m; page := page s |})
      | Err e => (Err e, s)
      end
  end.

(** Lines 77-85: the encoding and the frame. *)
Definition input_data (w : widgets) (bmi : pyfloat) : result FeatureVector :=
  let sex_n := sex_num (sex w) in
  let smoker_n := smoker_num (smoker w) in
  region_n ← region_num (region w);
  mret {| f_age := age w; f_sex := sex_n; f_bmi := bmi;
          f_children := children w; f_smoker := smoker_n;
          f_region := region_n |}.

(** Line 90, [model.predict (input_data)]. *)
Definition model_predict (model : artifact) (x : FeatureVector) : M pyfloat :=
  emit (Predict x);; lift (predict model x).

Section Script.

Variable pow_rounds_up : Q -> bool.

(** One run of [app.py], top to bottom.  [bmi], the value of the disabled
    number input of line 71, is the value it was given: so it is for every
    finite value, hence for every position of the sliders.  On an infinite
    value, which needs a weight that no slider gives (1e308 kg at 1 cm),
    [st.number_input] raises instead; this check is not part of [script],
    which past the sliders describes the run up to it. *)
Definition script (file : file_state) (w : widgets) : M unit :=
  model ← load_model file;
  bmi_calculated ← lift (bmi_calculated pow_rounds_up (height w) (weight w));
  emit (BmiMetric bmi_calculated);;
  let bmi := bmi_calculated in
  if button w then
    x ← lift (input_data w bmi);
    cost ← model_predict model x;
    emit Balloons;;
    emit (CostMetric (format_2f cost));;
    emit (Commentary (classify cost))
  else mret tt.

(** A rerun of the script (one per interaction with the page): it starts on
    an empty page and on the store the runs before it left. *)
Definition rerun (file : file_state) (w : widgets) (cache : option artifact)
  : result unit * state :=
  script file w {| resource_cache := cache; page := [] |}.

(** The reruns of one process, each with the file as it is at that time:
    what each rerun returned and showed, and the store at the end. *)
Fixpoint session (runs : list (file_state * widgets))
  (cache : option artifact)
  : list (result unit * list event) * option artifact :=
  match runs with
  | [] => ([], cache)
  | (file, w) :: runs' =>
      let '(r, s) := rerun file w cache in
      let '(rest, cache') := session runs' (resource_cache s) in
      ((r, page s) :: rest, cache')
  end.

End Script.

(** ** The model as an object

    [st.cache_resource] hands every run the stored object itself, not a
    copy of it: what a call of [predict] changes in the object is there at
    the next call, in this run or a later one. *)
Section ModelObject.

(** Modelled from the spec: the pickled model is not among the sources.  The
    spec (6) gives it one capability, [predict]; here it is any Python
    object with that method.  [object] is what the object holds; a call of
    [predict] returns or raises, and leaves the object holding what the
    method made of it. *)
Variable object : Type.
Variable object_predict :
  object -> FeatureVector -> result pyfloat * object.

Variable pow_rounds_up : Q -> bool.

(** Lines 53-105 of a run that finds the object in the store: what the run
    returns and shows, and the object afterwards. *)
Definition object_rerun (w : widgets) (model : object)
  : result unit * list event * object :=
  match bmi_calculated pow_rounds_up (height w) (weight w) with
  | Err e => (Err e, [], model)
  | Ok bmi =>
      if button w then
        match input_data w bmi with
        | Err e => (Err e, [BmiMetric bmi], model)
        | Ok x =>
            match object_predict model x with
            | (Err e, model') => (Err e, [BmiMetric bmi; Predict x], model')
            | (Ok cost, model') =>
                (Ok tt,
                 [BmiMetric bmi; Predict x; Balloons;
                  CostMetric (format_2f cost); Commentary (classify cost)],
                 model')
            end
        end
      else (Ok tt, [BmiMetric bmi], model)
  end.

(** The reruns of one process on the stored object. *)
Fixpoint object_session (ws : list widgets) (model : object)
  : list (result unit * list event) * object :=
  match ws with
  | [] => ([], model)
  | w :: ws' =>
      let '(r, shown, model') := object_rerun w model in
      let '(rest, model'') := object_session ws' model' in
      ((r, shown) :: rest, model'')
  end.

End ModelObject.

Arguments object_rerun {object} object_predict pow_rounds_up w model.
Arguments object_session {object} object_predict pow_rounds_up ws model.

(** An [artifact] as an object: its [predict] changes nothing. *)
Definition as_object (m : artifact) (x : FeatureVector)
  : result pyfloat * artifact :=
  (predict m x, m).

(** ** Notions the properties are stated with *)

(** The model a run works with: the stored one, or else the file's. *)
Definition model_of (file : file_state) (cache : option artifact)
  : result artifact :=
  match cache with
  | Some m => Ok m
  | None => load_model_body file
  end.

Definition unavailable (file : file_state) : Prop :=
  match file with Pickled _ => False | _ => True end.

Definition unknown_region (region : string) : Prop :=
  PyStr.lower region <> "southwest" /\ PyStr.lower region <> "southeast"
  /\ PyStr.lower region <> "northwest" /\ PyStr.lower region <> "northeast".

Definition startup_failure (file : file_state) : result unit :=
  match load_model_body file with
  | Ok _ => Ok tt
  | Err e => Err e
  end.

(** The real number that [weight / (height / 100) ** 2] denotes. *)
Definition exact_bmi (height weight : Z) : Q :=
  inject_Z weight / (inject_Z height / 100) ^ 2.

(** [lo, lo + 1, ..., lo + n - 1]. *)
Definition zrange (lo : Z) (n : nat) : list Z :=
  map (fun i => lo + Z.of_nat i) (seq 0 n).

Definition Q_same (a b : Q) : bool :=
  (Qnum a =? Qnum b) && Pos.eqb (Qden a) (Qden b).

(** The square of [height / 100] when [pow] rounds in the direction [up]. *)
Definition square_of (up : bool) (h : Z) : result pyfloat :=
  metres ← PyFloat.int_truediv h 100;
  PyFloat.pow2 (fun _ => up) metres.

(** What is checked of the BMI at one slider position, given the square:
    the quotient is a finite float; [k] being its nearest hundredth,
    [k / 100] is within half a hundredth of the real quotient (stated on
    rationals and on integers), and the float nearest to [k / 100] is
    within a thousandth of a hundredth of it. *)
Definition weight_check (h : Z) (square : pyfloat) (w : Z) : bool :=
  match PyFloat.int_div_float w square with
  | Ok (Fin z) =>
      let k := Binary64.round_int Binary64.Nearest (z * 100) in
      match Binary64.RN (k # 100) with
      | Some r =>
          Qle_bool (Qabs ((k # 100) - exact_bmi h w)) (1 # 200)
          && (2 * Z.abs (k * (h * h) - 1000000 * w) <=? h * h)
          && Qle_bool (Qabs (r * 100 - inject_Z k)) (1 # 1000)
      | None => false
      end
  | _ => false
  end.

(** The same for every position of the weight slider and both directions. *)
Definition height_check (h : Z) : bool :=
  forallb (fun up =>
    match square_of up h with
    | Ok square => forallb (weight_check h square) (zrange 40 111)
    | Err _ => false
    end) [true; false].

(** [r1] and [r2] are finite floats and [r1] is the smaller. *)
Definition lt_floats (r1 r2 : result pyfloat) : Prop :=
  match r1, r2 with
  | Ok (Fin a), Ok (Fin b) => (a < b)%Q
  | _, _ => False
  end.

(** What is checked of [height / 100] at one slider position: it is a
    float, and so is its mirror image for the height negated. *)
Definition metres_check (h : Z) : bool :=
  match PyFloat.int_truediv h 100, PyFloat.int_truediv (- h) 100 with
  | Ok (Fin m), Ok (Fin m') => Q_same (Qabs m') (Qabs m)
  | _, _ => false
  end.

(** ** The form (lines 53-54 and 63-69)

<<
    age = st.number_input("Age", 18, 100, 30)
    sex = st.selectbox("Sex", ("Male", "Female"))
    children = st.number_input("Number of Children", 0, 10, 0)
    smoker = st.selectbox("Are you a smoker?", ("Yes", "No"))
    region = st.selectbox("Your Region", ("Southwest", "Southeast", ...))
>> *)

Definition sex_options : list string := ["Male"; "Female"].
Definition smoker_options : list string := ["Yes"; "No"].
Definition region_options : list string :=
  ["Southwest"; "Southeast"; "Northwest"; "Northeast"].

(** The widget values the form can give: each slider and number input
    within its bounds, each select box on one of its options. *)
Definition form_input (w : widgets) : Prop :=
  height_slider (height w) /\ weight_slider (weight w)
  /\ 18 <= age w <= 100 /\ In (sex w) sex_options
  /\ 0 <= children w <= 10 /\ In (smoker w) smoker_options
  /\ In (region w) region_options.

(** A frame whose every column is in the range the form gives it; 8.26 and
    76.53 are the BMI at the two ends of the sliders. *)
Definition frame_in_domain (x : FeatureVector) : Prop :=
  18 <= f_age x <= 100
  /\ (f_sex x = 0 \/ f_sex x = 1)
  /\ 0 <= f_children x <= 10
  /\ (f_smoker x = 0 \/ f_smoker x = 1)
  /\ 0 <= f_region x <= 3
  /\ exists b, f_bmi x = Fin b
       /\ (Binary64.literal 826 100 <= b)%Q
       /\ (b <= Binary64.literal 7653 100)%Q.

(** The model of the first rerun whose file is a pickle. *)
Fixpoint first_pickled (runs : list (file_state * widgets))
  : option artifact :=
  match runs with
  | [] => None
  | (Pickled m, _) :: _ => Some m
  | _ :: runs' => first_pickled runs'
  end.

(** The tiers in the order of the thresholds. *)
Definition tier_rank (t : CostTier) : Z :=
  match t with Low => 0 | Moderate => 1 | High => 2 end.

(** ** Sample inputs *)

(** The default widget values of the form with the button pressed, and a
    stand-in for the pickled model. *)
Definition default_widgets : widgets :=
  {| height := 175; weight := 70; age := 30; sex := "Male"; children := 0;
     smoker := "Yes"; region := "Southwest"; button := true |}.

Definition sample_model : artifact :=
  {| predict := fun x =>
       Ok (Fin (inject_Z (250 * f_age x + 20000 * f_smoker x)
                + (if f_bmi x is Fin b then 100 * b else 0))) |}.

(** A [pow] that rounds the square to the nearest float. *)
Definition nearest_pow (a : Q) : bool :=
  match Binary64.RN (a * a), Binary64.round Binary64.Up (a * a) with
  | Some n, Some u => Qeq_bool n u
  | _, _ => true
  end.

(** A model whose prediction is the float written 4999.996, just below the
    first threshold and shown as 5,000.00. *)
Definition boundary_model : artifact :=
  {| predict := fun _ => Ok (Fin (Binary64.literal 4999996 1000)) |}.

(** Widget values that the select boxes do not offer. *)
Definition other_widgets : widgets :=
  {| height := 175; weight := 70; age := 30; sex := "Other"; children := 0;
     smoker := "Sometimes"; region := "Northeast"; button := true |}.

Definition midwest_widgets : widgets :=
  {| height := 175; weight := 70; age := 30; sex := "Male"; children := 0;
     smoker := "Yes"; region := "Midwest"; button := true |}.

(** The frame of [default_widgets] and the state its run ends in. *)
Definition default_frame : FeatureVector :=
  {| f_age := 30; f_sex := 1; f_bmi := Fin (Binary64.literal 2286 100);
     f_children := 0; f_smoker := 1; f_region := 0 |}.

Definition default_state : state :=
  {| resource_cache := Some sample_model;
     page := [ BmiMetric (Fin (Binary64.literal 2286 100));
               Predict default_frame;
               Balloons;
               CostMetric (Hundredths 2978600);
               Commentary High ] |}.

(** A model whose [predict] raises. *)
Definition failing_model : artifact :=
  {| predict := fun _ => Err InferenceError |}.

(** An unknown region with the button not pressed. *)
Definition idle_midwest_widgets : widgets :=
  {| height := 175; weight := 70; age := 30; sex := "Male"; children := 0;
     smoker := "Yes"; region := "Midwest"; button := false |}.

(** An object that counts the calls of its [predict] and answers with six
    thousand times the count. *)
Definition counting_predict (calls : Z) (x : FeatureVector)
  : result pyfloat * Z :=
  (Ok (Fin (inject_Z (6000 * calls))), calls + 1).

(** * Properties *)

(** ** Test runs *)

Example region_num_Southeast : region_num "Southeast" = Ok 1.
Proof. vm_compute. reflexivity. Qed.

Example region_num_upper : region_num "SOUTHEAST" = Ok 1.
Proof. vm_compute. reflexivity. Qed.

Example region_num_unknown : region_num "Midwest" = Err (KeyError "midwest").
Proof. vm_compute. reflexivity. Qed.

Example default_run :
  rerun nearest_pow (Pickled sample_model) default_widgets None
  = (Ok tt, default_state).
Proof. vm_compute. reflexivity. Qed.

Example classify_nan : classify NaN = High.
Proof. reflexivity. Qed.

(** ** The encoding *)

Lemma region_map_lookup (k : string) :
  region_map !! k =
    if decide (k = "southwest") then Some 0
    else if decide (k = "southeast") then Some 1
    else if decide (k = "northwest") then Some 2
    else if decide (k = "northeast") then Some 3
    else None.
Proof.
  unfold region_map.
  repeat (rewrite lookup_insert; case_decide; subst; [reflexivity |]).
  rewrite lookup_singleton.
  repeat case_decide; congruence.
Qed.

Lemma region_num_lower (r1 r2 : string) :
  PyStr.lower r1 = PyStr.lower r2 -> region_num r1 = region_num r2.
Proof. unfold region_num. intros ->. reflexivity. Qed.

Lemma region_num_Ok (region : string) (n : Z) :
  region_num region = Ok n <->
    (PyStr.lower region = "southwest" /\ n = 0)
    \/ (PyStr.lower region = "southeast" /\ n = 1)
    \/ (PyStr.lower region = "northwest" /\ n = 2)
    \/ (PyStr.lower region = "northeast" /\ n = 3).
Proof.
  unfold region_num, dict_getitem. rewrite region_map_lookup.
  repeat case_decide; split; intros Hn;
    try (injection Hn as <-); try discriminate; try tauto;
    repeat (destruct Hn as [[Hk ->] | Hn]; [congruence |]);
    try (destruct Hn as [Hk ->]; congruence).
Qed.

Lemma region_num_Err (region : string) (e : exn) :
  region_num region = Err e <->
    e = KeyError (PyStr.lower region)
    /\ PyStr.lower region <> "southwest" /\ PyStr.lower region <> "southeast"
    /\ PyStr.lower region <> "northwest" /\ PyStr.lower region <> "northeast".
Proof.
  unfold region_num, dict_getitem. rewrite region_map_lookup.
  repeat case_decide; split; intros He; try discriminate; try tauto.
  - injection He as <-. tauto.
  - destruct He as [-> _]. reflexivity.
Qed.

(** C1: the encoding table.  Female is 0 and Male is 1; No is 0 and Yes is
    1; a region is looked up by its lower-cased name, southwest 0,
    southeast 1, northwest 2, northeast 3, and these four are the only
    names with a code; so two regions with the same lower-casing (such as
    SOUTHEAST and southeast) get the same encoding. *)
Theorem categorical_encoding :
  sex_num "Female" = 0 /\ sex_num "Male" = 1
  /\ smoker_num "No" = 0 /\ smoker_num "Yes" = 1
  /\ (forall region n,
        region_num region = Ok n <->
          (PyStr.lower region = "southwest" /\ n = 0)
          \/ (PyStr.lower region = "southeast" /\ n = 1)
          \/ (PyStr.lower region = "northwest" /\ n = 2)
          \/ (PyStr.lower region = "northeast" /\ n = 3))
  /\ (forall r1 r2,
        PyStr.lower r1 = PyStr.lower r2 -> region_num r1 = region_num r2)
  /\ region_num "SOUTHEAST" = region_num "southeast"
  /\ region_num "southeast" = Ok 1.
Proof.
  repeat split; try reflexivity.
  - apply region_num_Ok.
  - apply region_num_Ok.
  - apply region_num_lower.
Qed.

Lemma categorical_encoding_witness :
  region_num "SouthEast" = region_num "SOUTHEAST"
  /\ region_num "NorthWest" = Ok 2.
Proof.
  destruct categorical_encoding as (_ & _ & _ & _ & Htab & Hlow & _).
  split.
  - apply Hlow. reflexivity.
  - apply Htab. right. right. left. split; reflexivity.
Defined.

(** C10: a sex other than Female is encoded as 1 and a smoker other than No
    is encoded as 1, whatever the string; the encoding step fails only
    through the region lookup, and then with that lookup's error. *)
Theorem sex_smoker_else_branch :
  (forall s : string, s <> "Female" -> sex_num s = 1)
  /\ (forall s : string, s <> "No" -> smoker_num s = 1)
  /\ (forall w bmi n,
        region_num (region w) = Ok n ->
        input_data w bmi =
          Ok {| f_age := age w; f_sex := sex_num (sex w); f_bmi := bmi;
                f_children := children w; f_smoker := smoker_num (smoker w);
                f_region := n |})
  /\ (forall w bmi e,
        input_data w bmi = Err e <-> region_num (region w) = Err e).
Proof.
  repeat split.
  - intros s Hs. unfold sex_num. case_decide; congruence.
  - intros s Hs. unfold smoker_num. case_decide; congruence.
  - intros w bmi n Hn. unfold input_data. rewrite Hn. reflexivity.
  - unfold input_data.
    destruct (region_num (region w)); cbv [mbind result_bind mret result_ret];
      congruence.
  - unfold input_data. intros ->. reflexivity.
Qed.

Lemma sex_smoker_else_branch_witness :
  sex_num "Other" = 1 /\ smoker_num "Sometimes" = 1 /\ sex_num "male" = 1.
Proof.
  destruct sex_smoker_else_branch as (Hsex & Hsmoker & _).
  split; [| split].
  - apply Hsex. discriminate.
  - apply Hsmoker. discriminate.
  - apply Hsex. discriminate.
Defined.

(** ** The commentary *)

Lemma classify_Fin (q : Q) :
  classify (Fin q) =
    if Qle_bool 15000 q then High
    else if Qle_bool 5000 q then Moderate else Low.
Proof.
  unfold classify, PyFloat.lt_int, PyFloat.int_le.
  change (inject_Z 5000) with 5000%Q. change (inject_Z 15000) with 15000%Q.
  destruct (Qle_bool 15000 q) eqn:E15, (Qle_bool 5000 q) eqn:E5;
    try reflexivity.
  apply Qle_bool_iff in E15.
  assert (H5 : (5000 <= q)%Q)
    by (eapply Qle_trans; [| exact E15]; discriminate).
  apply Qle_bool_iff in H5. congruence.
Qed.

(** C2: [classify] is total on the reals: Low exactly below 5000, Moderate
    exactly from 5000 up to but not including 15000, High exactly from 15000
    on, negative costs included; 4999.99 is Low, 5000 is Moderate, 14999.99
    is Moderate and 15000 is High, for the decimals and for the floats
    nearest to them. *)
Theorem classify_thresholds :
  (forall q : Q,
      (classify (Fin q) = Low <-> (q < 5000)%Q)
      /\ (classify (Fin q) = Moderate <-> (5000 <= q /\ q < 15000)%Q)
      /\ (classify (Fin q) = High <-> (15000 <= q)%Q))
  /\ classify (Fin (499999 # 100)) = Low
  /\ classify (Fin (Binary64.literal 499999 100)) = Low
  /\ classify (Fin 5000) = Moderate
  /\ classify (Fin (1499999 # 100)) = Moderate
  /\ classify (Fin (Binary64.literal 1499999 100)) = Moderate
  /\ classify (Fin 15000) = High
  /\ classify (Fin (-1)) = Low.
Proof.
  split; [| repeat (split; [vm_compute; reflexivity |]); reflexivity].
  intros q. rewrite classify_Fin.
  destruct (Qle_bool 15000 q) eqn:E15; [| destruct (Qle_bool 5000 q) eqn:E5].
  - apply Qle_bool_iff in E15.
    assert (H5 : (5000 <= q)%Q)
      by (eapply Qle_trans; [| exact E15]; discriminate).
    (split; [| split]); split; intros H; try discriminate; try assumption;
      try (split; assumption).
    + exfalso. exact (Qlt_not_le _ _ H H5).
    + exfalso. exact (Qlt_not_le _ _ (proj2 H) E15).
  - apply Qle_bool_iff in E5.
    assert (H15 : (q < 15000)%Q).
    { apply Qnot_le_lt. intros Hle. apply Qle_bool_iff in Hle. congruence. }
    (split; [| split]); split; intros H; try discriminate; try assumption;
      try (split; assumption).
    + exfalso. exact (Qlt_not_le _ _ H E5).
    + exfalso. exact (Qlt_not_le _ _ H15 H).
  - assert (H5 : (q < 5000)%Q).
    { apply Qnot_le_lt. intros Hle. apply Qle_bool_iff in Hle. congruence. }
    assert (H15 : (q < 15000)%Q)
      by (eapply Qlt_trans; [exact H5 | reflexivity]).
    (split; [| split]); split; intros H; try discriminate; try assumption;
      try (split; assumption).
    + exfalso. exact (Qlt_not_le _ _ H5 (proj1 H)).
    + exfalso. exact (Qlt_not_le _ _ H15 H).
Qed.

(** ** The script *)

Section ScriptProperties.

Variable pow_rounds_up : Q -> bool.


(** A run, outcome by outcome, in the order of the script's lines. *)
Lemma rerun_cases (file : file_state) (w : widgets) (cache : option artifact) :
  rerun pow_rounds_up file w cache =
    match model_of file cache with
    | Err e => (Err e, {| resource_cache := cache; page := [] |})
    | Ok m =>
        let store := Some m in
        match bmi_calculated pow_rounds_up (height w) (weight w) with
        | Err e => (Err e, {| resource_cache := store; page := [] |})
        | Ok b =>
            if button w then
              match input_data w b with
              | Err e =>
                  (Err e, {| resource_cache := store; page := [BmiMetric b] |})
              | Ok x =>
                  match predict m x with
                  | Err e =>
                      (Err e, {| resource_cache := store;
                                 page := [BmiMetric b; Predict x] |})
                  | Ok c =>
                      (Ok tt, {| resource_cache := store;
                                 page := [BmiMetric b; Predict x; Balloons;
                                          CostMetric (format_2f c);
                                          Commentary (classify c)] |})
                  end
              end
            else (Ok tt, {| resource_cache := store; page := [BmiMetric b] |})
        end
    end.
Proof.
  unfold rerun, script, model_of, load_model, model_predict, lift, emit.
  cbv [mbind M_bind mret M_ret]. cbn [resource_cache page].
  destruct cache as [m |]; [| destruct (load_model_body file) as [m | e]];
    cbn [resource_cache page]; try reflexivity;
    (destruct (bmi_calculated pow_rounds_up (height w) (weight w)) as [b | e];
     [| reflexivity]);
    (destruct (button w); [| reflexivity]);
    (destruct (input_data w b) as [x | e]; [| reflexivity]);
    cbn [resource_cache page app];
    (destruct (predict m x) as [c | e]; reflexivity).
Qed.

Lemma rerun_store (file : file_state) (w : widgets) (cache : option artifact) :
  resource_cache (snd (rerun pow_rounds_up file w cache)) =
    match model_of file cache with
    | Ok m => Some m
    | Err _ => cache
    end.
Proof.
  rewrite rerun_cases.
  destruct (model_of file cache) as [m | e]; [| reflexivity].
  cbv zeta.
  destruct (bmi_calculated pow_rounds_up (height w) (weight w)) as [b | e];
    [| reflexivity].
  destruct (button w); [| reflexivity].
  destruct (input_data w b) as [x | e]; [| reflexivity].
  destruct (predict m x); reflexivity.
Qed.

Lemma model_of_unavailable (file : file_state) :
  unavailable file -> model_of file None = load_model_body file
                      /\ exists e, load_model_body file = Err e.
Proof.
  destruct file; simpl; intros H; try contradiction; split; eauto.
Qed.

(** While the file is unavailable, every rerun from an empty store fails at
    the load, shows nothing, calls no [predict] and leaves the store
    empty. *)
Lemma session_unavailable (runs : list (file_state * widgets)) :
  Forall (fun run => unavailable (fst run)) runs ->
  session pow_rounds_up runs None =
    (map (fun run => (startup_failure (fst run), [])) runs, None)
  /\ Forall (fun out => is_ok (fst out) = false
                        /\ forall x, ~ In (Predict x) (snd out))
       (fst (session pow_rounds_up runs None))
  /\ startup_failure Missing = Err FileNotFoundError.
Proof.
  intros Hruns.
  assert (Hsession : session pow_rounds_up runs None =
            (map (fun run => (startup_failure (fst run), [])) runs, None)).
  { induction Hruns as [| [file w] runs Hfile _ IH]; [reflexivity |].
    cbn [session map fst].
    rewrite rerun_cases.
    destruct (model_of_unavailable file Hfile) as [-> [e He]].
    unfold startup_failure. rewrite He. cbn [resource_cache page].
    rewrite IH. unfold startup_failure. reflexivity. }
  split; [exact Hsession |]. split; [| reflexivity].
  rewrite Hsession. clear Hsession. cbn [fst].
  induction Hruns as [| [file w] runs Hfile _ IH]; cbn [map]; constructor;
    [| exact IH].
  cbn [fst snd]. destruct (model_of_unavailable file Hfile) as [_ [e He]].
  unfold startup_failure. rewrite He. split; [reflexivity | intros x []].
Qed.

(** C9: in a run that reaches the prediction, the value classified for the
    commentary is the very value [predict] returned for the encoded frame;
    only the metric's text is rounded to two decimals. *)
Theorem cost_classified_as_predicted (file : file_state) (w : widgets)
    (cache : option artifact) (m : artifact) (b : pyfloat)
    (x : FeatureVector) (c : pyfloat) :
  model_of file cache = Ok m ->
  bmi_calculated pow_rounds_up (height w) (weight w) = Ok b ->
  button w = true ->
  input_data w b = Ok x ->
  predict m x = Ok c ->
  rerun pow_rounds_up file w cache =
    (Ok tt,
     {| resource_cache := Some m;
        page := [BmiMetric b; Predict x; Balloons;
                 CostMetric (format_2f c); Commentary (classify c)] |}).
Proof.
  intros Hm Hb Hbutton Hx Hc.
  rewrite rerun_cases, Hm. cbv zeta. rewrite Hb, Hbutton, Hx, Hc.
  reflexivity.
Qed.

Lemma known_region_dec (region : string) :
  ~ unknown_region region -> exists n, region_num region = Ok n.
Proof.
  unfold unknown_region, region_num, dict_getitem. rewrite region_map_lookup.
  intros Hk. repeat (case_decide; [eauto |]). tauto.
Qed.

End ScriptProperties.

Lemma cost_classified_as_predicted_witness :
  rerun nearest_pow (Pickled boundary_model) default_widgets None
  = (Ok tt,
     {| resource_cache := Some boundary_model;
        page := [ BmiMetric (Fin (Binary64.literal 2286 100));
                  Predict default_frame;
                  Balloons;
                  CostMetric (Hundredths 500000);
                  Commentary Low ] |}).
Proof.
  apply (cost_classified_as_predicted nearest_pow (Pickled boundary_model)
           default_widgets None boundary_model
           (Fin (Binary64.literal 2286 100)) default_frame
           (Fin (Binary64.literal 4999996 1000)));
    vm_compute; reflexivity.
Defined.

(** C3 as stated fails: a sex and a smoker that are in no table are encoded
    as 1 and 1, and the run calls [predict] and ends well. *)
Lemma unknown_sex_smoker_not_rejected :
  sex other_widgets <> "Male" /\ sex other_widgets <> "Female"
  /\ smoker other_widgets <> "Yes" /\ smoker other_widgets <> "No"
  /\ rerun nearest_pow (Pickled sample_model) other_widgets None
     = (Ok tt,
        {| resource_cache := Some sample_model;
           page := [ BmiMetric (Fin (Binary64.literal 2286 100));
                     Predict {| f_age := 30; f_sex := 1;
                                f_bmi := Fin (Binary64.literal 2286 100);
                                f_children := 0; f_smoker := 1;
                                f_region := 3 |};
                     Balloons;
                     CostMetric (Hundredths 2978600);
                     Commentary High ] |}).
Proof.
  repeat (split; [discriminate |]). vm_compute. reflexivity.
Qed.

(** ** The BMI *)

Lemma Q_same_eq (a b : Q) : Q_same a b = true -> a = b.
Proof.
  unfold Q_same. destruct a as [na da], b as [nb db]. cbn [Qnum Qden].
  rewrite andb_true_iff, Z.eqb_eq, Pos.eqb_eq. intros [-> ->]. reflexivity.
Qed.

Lemma zrange_In (lo : Z) (n : nat) (z : Z) :
  lo <= z < lo + Z.of_nat n -> In z (zrange lo n).
Proof.
  intros Hz. unfold zrange. apply in_map_iff.
  exists (Z.to_nat (z - lo)). split; [lia |]. apply in_seq. lia.
Qed.

(** Every slider position, for both rounding directions of [pow]. *)
Lemma slider_check_ok : forallb height_check (zrange 140 81) = true.
Proof. vm_cast_no_check (eq_refl true). Qed.

Lemma metres_check_ok : forallb metres_check (zrange 140 81) = true.
Proof. vm_cast_no_check (eq_refl true). Qed.

Lemma of_int_check_ok :
  forallb (fun w => is_ok (PyFloat.of_int w)) (zrange 40 111) = true.
Proof. vm_cast_no_check (eq_refl true). Qed.

Lemma bmi_of_square (up : bool) (h w : Z) :
  bmi_calculated (fun _ => up) h w =
    match square_of up h with
    | Ok square =>
        ratio ← PyFloat.int_div_float w square; PyFloat.round2 ratio
    | Err e => Err e
    end.
Proof.
  unfold bmi_calculated, square_of.
  destruct (PyFloat.int_truediv h 100) as [metres | e]; [| reflexivity].
  cbv [mbind result_bind].
  destruct (PyFloat.pow2 (fun _ => up) metres); reflexivity.
Qed.

Lemma weight_check_slider (up : bool) (h w : Z) :
  height_slider h -> weight_slider w ->
  exists square,
    square_of up h = Ok square /\ weight_check h square w = true.
Proof.
  unfold height_slider, weight_slider. intros Hh Hw.
  pose proof slider_check_ok as Hall.
  rewrite forallb_forall in Hall.
  assert (Hi : In h (zrange 140 81)) by (apply zrange_In; lia).
  specialize (Hall h Hi). unfold height_check in Hall.
  rewrite forallb_forall in Hall.
  assert (Hup : In up [true; false]) by (destruct up; simpl; tauto).
  specialize (Hall up Hup).
  destruct (square_of up h) as [square | e]; [| discriminate].
  exists square. split; [reflexivity |].
  rewrite forallb_forall in Hall. apply Hall. apply zrange_In. lia.
Qed.

(** From the two-decimal digits to the floats: a larger [k] gives a larger
    float [k / 100], given how close each float is to its decimal. *)
Lemma literal_lt (r1 r2 : Q) (k1 k2 : Z) :
  (Qabs (r1 * 100 - inject_Z k1) <= 1 # 1000)%Q ->
  (Qabs (r2 * 100 - inject_Z k2) <= 1 # 1000)%Q ->
  k1 < k2 -> (r1 < r2)%Q.
Proof.
  intros H1 H2 Hk.
  apply Qabs_Qle_condition in H1, H2.
  assert (Hq : (inject_Z k1 + 1 <= inject_Z k2)%Q).
  { unfold Qle, Qplus, inject_Z. cbn [Qnum Qden]. lia. }
  lra.
Qed.

(** The nearest hundredths of two quotients over the same height are in the
    order of the weights: one kilogram moves the quotient by more than a
    fifth. *)
Lemma hundredths_weight (h w1 w2 k1 k2 : Z) :
  height_slider h -> w1 < w2 ->
  2 * Z.abs (k1 * (h * h) - 1000000 * w1) <= h * h ->
  2 * Z.abs (k2 * (h * h) - 1000000 * w2) <= h * h ->
  k1 < k2.
Proof.
  unfold height_slider. intros Hh Hw H1 H2.
  assert (HH : 19600 <= h * h <= 48400) by nia.
  set (H := h * h) in *. clearbody H.
  assert (Hd : 0 < (k2 - k1) * H) by lia.
  nia.
Qed.

(** And in the reverse order of the heights, for one weight. *)
Lemma hundredths_height (h1 h2 w k1 k2 : Z) :
  height_slider h1 -> height_slider h2 -> weight_slider w -> h1 < h2 ->
  2 * Z.abs (k1 * (h1 * h1) - 1000000 * w) <= h1 * h1 ->
  2 * Z.abs (k2 * (h2 * h2) - 1000000 * w) <= h2 * h2 ->
  k2 < k1.
Proof.
  unfold height_slider, weight_slider. intros Hh1 Hh2 Hw Hlt H1 H2.
  assert (HH1 : 19600 <= h1 * h1 <= 48400) by nia.
  assert (HH2 : 19600 <= h2 * h2 <= 48400) by nia.
  assert (Hgap : h1 * h1 + 281 <= h2 * h2) by nia.
  set (A := h1 * h1) in *. set (B := h2 * h2) in *. clearbody A B.
  assert (Hk1 : 825 <= k1) by nia.
  destruct (Z_lt_le_dec k2 k1) as [Hlt' | Hge]; [exact Hlt' | exfalso].
  assert (Hm : k1 * B <= k2 * B) by nia.
  assert (Hm' : k1 * A + 281 * k1 <= k1 * B) by nia.
  lia.
Qed.

Section BMIProperties.

Variable pow_rounds_up : Q -> bool.

(** Of [pow] only the direction it takes at [|height / 100|] matters. *)
Lemma bmi_calculated_direction (h w : Z) :
  exists up : bool,
    bmi_calculated pow_rounds_up h w = bmi_calculated (fun _ => up) h w.
Proof.
  unfold bmi_calculated.
  destruct (PyFloat.int_truediv h 100) as [[m | | |] | e];
    try (exists true; reflexivity).
  exists (pow_rounds_up (Qabs m)). reflexivity.
Qed.

(** The BMI at a slider position. *)
Lemma bmi_slider (h w : Z) :
  height_slider h -> weight_slider w ->
  exists k : Z,
    bmi_calculated pow_rounds_up h w = Ok (Fin (Binary64.literal k 100))
    /\ (Qabs ((k # 100) - exact_bmi h w) <= 1 # 200)%Q
    /\ 2 * Z.abs (k * (h * h) - 1000000 * w) <= h * h
    /\ (Qabs (Binary64.literal k 100 * 100 - inject_Z k) <= 1 # 1000)%Q.
Proof.
  intros Hh Hw. destruct (bmi_calculated_direction h w) as [up ->].
  destruct (weight_check_slider up h w Hh Hw) as (square & Hs & Hc).
  rewrite bmi_of_square, Hs. unfold weight_check in Hc.
  destruct (PyFloat.int_div_float w square) as [[z | | |] | e];
    try discriminate.
  cbv zeta in Hc. cbv [mbind result_bind].
  exists (Binary64.round_int Binary64.Nearest (z * 100)).
  unfold PyFloat.round2, Binary64.literal.
  destruct (Binary64.RN (Binary64.round_int Binary64.Nearest (z * 100) # 100))
    as [r |]; [| discriminate].
  repeat rewrite andb_true_iff in Hc. destruct Hc as [[Hq Hz] Hf].
  apply Qle_bool_iff in Hq, Hf. apply Z.leb_le in Hz.
  split; [reflexivity |].
  split; [exact Hq |]. split; [exact Hz | exact Hf].
Qed.

(** C4: at every position of the two sliders the BMI is
    [weight / (height / 100)^2] rounded to two decimals: it is the float
    written [k / 100] for an integer [k], and [k / 100] is within half a
    hundredth of the quotient (a nearest decimal; on a tie either
    neighbour).  For 175 cm and 70 kg it is 22.86. *)
Theorem bmi_rounded_to_two_decimals (height weight : Z) :
  height_slider height -> weight_slider weight ->
  (exists k : Z,
      bmi_calculated pow_rounds_up height weight
      = Ok (Fin (Binary64.literal k 100))
      /\ (Qabs ((k # 100) - exact_bmi height weight) <= 1 # 200)%Q)
  /\ bmi_calculated pow_rounds_up 175 70
     = Ok (Fin (Binary64.literal 2286 100)).
Proof.
  intros Hh Hw. split.
  - destruct (bmi_slider height weight Hh Hw) as (k & Hk & Hq & _).
    exists k. split; assumption.
  - destruct (bmi_calculated_direction 175 70) as [[] ->];
      vm_compute; reflexivity.
Qed.

(** C7: over the slider ranges the rounded BMI is strictly increasing in the
    weight and strictly decreasing in the height (so also in the weak
    sense). *)
Theorem bmi_monotone :
  (forall h w1 w2,
      height_slider h -> weight_slider w1 -> weight_slider w2 -> w1 < w2 ->
      lt_floats (bmi_calculated pow_rounds_up h w1)
                (bmi_calculated pow_rounds_up h w2))
  /\ (forall h1 h2 w,
        height_slider h1 -> height_slider h2 -> weight_slider w -> h1 < h2 ->
        lt_floats (bmi_calculated pow_rounds_up h2 w)
                  (bmi_calculated pow_rounds_up h1 w)).
Proof.
  split.
  - intros h w1 w2 Hh Hw1 Hw2 Hlt.
    destruct (bmi_slider h w1 Hh Hw1) as (k1 & -> & _ & Hz1 & Hf1).
    destruct (bmi_slider h w2 Hh Hw2) as (k2 & -> & _ & Hz2 & Hf2).
    cbn [lt_floats]. apply (literal_lt _ _ k1 k2 Hf1 Hf2).
    exact (hundredths_weight h w1 w2 k1 k2 Hh Hlt Hz1 Hz2).
  - intros h1 h2 w Hh1 Hh2 Hw Hlt.
    destruct (bmi_slider h1 w Hh1 Hw) as (k1 & -> & _ & Hz1 & Hf1).
    destruct (bmi_slider h2 w Hh2 Hw) as (k2 & -> & _ & Hz2 & Hf2).
    cbn [lt_floats]. apply (literal_lt _ _ k2 k1 Hf2 Hf1).
    exact (hundredths_height h1 h2 w k1 k2 Hh1 Hh2 Hw Hlt Hz1 Hz2).
Qed.

Lemma metres_mirror (h : Z) :
  height_slider h ->
  exists m m',
    PyFloat.int_truediv h 100 = Ok (Fin m)
    /\ PyFloat.int_truediv (- h) 100 = Ok (Fin m')
    /\ Qabs m' = Qabs m.
Proof.
  unfold height_slider. intros Hh.
  pose proof metres_check_ok as Hall. rewrite forallb_forall in Hall.
  assert (Hi : In h (zrange 140 81)) by (apply zrange_In; lia).
  specialize (Hall h Hi). unfold metres_check in Hall.
  destruct (PyFloat.int_truediv h 100) as [[m | | |] | e]; try discriminate.
  destruct (PyFloat.int_truediv (- h) 100) as [[m' | | |] | e];
    try discriminate.
  exists m, m'. apply Q_same_eq in Hall. auto.
Qed.

(** C8 as amended: the script has no check of the height and no
    DomainError.  A height of 0 makes the division itself raise
    [ZeroDivisionError]; a negative height is not rejected and gives the
    BMI of its absolute value; what keeps such heights out is the slider,
    on whose range the computation never fails. *)
Theorem height_is_not_validated :
  (forall w, weight_slider w ->
      bmi_calculated pow_rounds_up 0 w = Err ZeroDivisionError)
  /\ (forall h w, height_slider h ->
        bmi_calculated pow_rounds_up (- h) w
        = bmi_calculated pow_rounds_up h w)
  /\ (forall h w, height_slider h -> weight_slider w ->
        is_ok (bmi_calculated pow_rounds_up h w) = true).
Proof.
  split; [| split].
  - unfold weight_slider. intros w Hw.
    pose proof of_int_check_ok as Hall. rewrite forallb_forall in Hall.
    assert (Hj : In w (zrange 40 111)) by (apply zrange_In; lia).
    specialize (Hall w Hj).
    unfold bmi_calculated.
    change (PyFloat.int_truediv 0 100) with (Ok (Fin 0)).
    cbv [mbind result_bind]. unfold PyFloat.pow2.
    change (Qabs 0) with 0%Q.
    destruct (pow_rounds_up 0);
      (change (Binary64.round _ (0 * 0)) with (Some 0%Q);
       unfold PyFloat.int_div_float; cbv [mbind result_bind];
       destruct (PyFloat.of_int w); [reflexivity | discriminate]).
  - intros h w Hh. destruct (metres_mirror h Hh) as (m & m' & Hm & Hm' & Habs).
    unfold bmi_calculated. rewrite Hm, Hm'.
    cbv [mbind result_bind]. unfold PyFloat.pow2. rewrite Habs. reflexivity.
  - intros h w Hh Hw. destruct (bmi_slider h w Hh Hw) as (k & -> & _).
    reflexivity.
Qed.

End BMIProperties.

Lemma bmi_rounded_to_two_decimals_witness :
  (exists k : Z,
      bmi_calculated nearest_pow 160 56 = Ok (Fin (Binary64.literal k 100))
      /\ (Qabs ((k # 100) - exact_bmi 160 56) <= 1 # 200)%Q)
  /\ bmi_calculated nearest_pow 175 70
     = Ok (Fin (Binary64.literal 2286 100)).
Proof.
  apply (bmi_rounded_to_two_decimals nearest_pow 160 56).
  - unfold height_slider. lia.
  - unfold weight_slider. lia.
Defined.

Lemma bmi_monotone_witness :
  lt_floats (bmi_calculated nearest_pow 175 70)
            (bmi_calculated nearest_pow 175 71)
  /\ lt_floats (bmi_calculated nearest_pow 176 70)
               (bmi_calculated nearest_pow 175 70).
Proof.
  destruct (bmi_monotone nearest_pow) as [Hweight Hheight].
  split.
  - apply Hweight; unfold height_slider, weight_slider; lia.
  - apply Hheight; unfold height_slider, weight_slider; lia.
Defined.

(** C8 as stated fails: a negative height is not rejected, the BMI of
    -175 cm and 70 kg is 22.86. *)
Lemma negative_height_not_rejected :
  -175 <= 0
  /\ bmi_calculated nearest_pow (-175) 70
     = Ok (Fin (Binary64.literal 2286 100)).
Proof. split; [lia | vm_compute; reflexivity]. Qed.

Lemma height_is_not_validated_witness :
  bmi_calculated nearest_pow 0 70 = Err ZeroDivisionError
  /\ bmi_calculated nearest_pow (-175) 70 = bmi_calculated nearest_pow 175 70
  /\ is_ok (bmi_calculated nearest_pow 175 70) = true.
Proof.
  destruct (height_is_not_validated nearest_pow) as (Hzero & Hneg & Hok).
  split; [| split].
  - apply Hzero. unfold weight_slider. lia.
  - apply (Hneg 175). unfold height_slider. lia.
  - apply Hok; unfold height_slider, weight_slider; lia.
Defined.

(** * Further properties of the script *)


Lemma region_options_code (i : nat) (region : string) :
  nth_error region_options i = Some region ->
  region_num region = Ok (Z.of_nat i).
Proof.
  do 4 (destruct i as [| i]; [intros [= <-]; vm_compute; reflexivity |]).
  destruct i; discriminate.
Qed.

(** X1: the select box of the regions and [region_map] fit: the option at
    position [i] of the box is encoded as [i], so every offered region has
    a code, between 0 and 3, and the lookup of line 80 cannot raise on a
    value of the form; and every key of the dict is the lower-casing of an
    option that is encoded as the key's value. *)
Theorem region_options_encode :
  (forall i region,
      nth_error region_options i = Some region ->
      region_num region = Ok (Z.of_nat i))
  /\ (forall region, In region region_options ->
        exists n, region_num region = Ok n /\ 0 <= n <= 3)
  /\ (forall k v, region_map !! k = Some v ->
        exists region,
          In region region_options /\ PyStr.lower region = k
          /\ region_num region = Ok v).
Proof.
  split; [exact region_options_code |]. split.
  - intros region Hin. apply In_nth_error in Hin. destruct Hin as [i Hi].
    exists (Z.of_nat i). split; [exact (region_options_code i region Hi) |].
    assert (Hlt : (i < length region_options)%nat)
      by (apply nth_error_Some; congruence).
    cbn in Hlt. lia.
  - intros k v. rewrite region_map_lookup.
    repeat case_decide; intros [= <-]; subst k.
    + exists "Southwest". cbn. repeat split; auto.
    + exists "Southeast". cbn. repeat split; auto 6.
    + exists "Northwest". cbn. repeat split; auto 6.
    + exists "Northeast". cbn. repeat split; auto 6.
Qed.

(** ** Rounding to the nearest integer, the amount shown and the tier *)

Lemma round_div_nearest_bounds (n d : Z) :
  0 < d ->
  2 * Z.abs (Binary64.round_div Binary64.Nearest n d * d - n) <= d.
Proof.
  intros Hd. unfold Binary64.round_div.
  pose proof (Z_div_mod n d ltac:(lia)) as Hdm.
  destruct (Z.div_eucl n d) as [fl r]. destruct Hdm as [-> Hr].
  assert (Hup : (fl + 1) * d - (d * fl + r) = d - r) by ring.
  assert (Hdown : fl * d - (d * fl + r) = - r) by ring.
  destruct (Z.compare_spec (2 * r) d) as [Hc | Hc | Hc].
  - destruct (Z.even fl); rewrite ?Hup, ?Hdown; lia.
  - rewrite Hdown. lia.
  - rewrite Hup. lia.
Qed.

Lemma round_int_nearest_ge (q : Q) (a : Z) :
  (inject_Z a <= q)%Q -> a <= Binary64.round_int Binary64.Nearest q.
Proof.
  destruct q as [n d]. unfold Qle, Binary64.round_int, Binary64.round_div.
  cbn [Qnum Qden inject_Z]. intros Ha.
  pose proof (Z_div_mod n (Z.pos d) ltac:(lia)) as Hdm.
  destruct (Z.div_eucl n (Z.pos d)) as [fl r]. destruct Hdm as [Hn Hr].
  assert (Hfl : a <= fl) by nia.
  destruct (Z.compare_spec (2 * r) (Z.pos d));
    [destruct (Z.even fl) | |]; lia.
Qed.

Lemma round_int_nearest_le (q : Q) (a : Z) :
  (q <= inject_Z a)%Q -> Binary64.round_int Binary64.Nearest q <= a.
Proof.
  destruct q as [n d]. unfold Qle, Binary64.round_int, Binary64.round_div.
  cbn [Qnum Qden inject_Z]. intros Ha.
  pose proof (Z_div_mod n (Z.pos d) ltac:(lia)) as Hdm.
  destruct (Z.div_eucl n (Z.pos d)) as [fl r]. destruct Hdm as [Hn Hr].
  destruct (Z.compare_spec (2 * r) (Z.pos d)) as [Hc | Hc | Hc].
  - destruct (Z.even fl); nia.
  - nia.
  - nia.
Qed.

(** X2: the amount shown never contradicts the commentary by more than the
    rounding: under a low commentary it is at most 5,000.00, under a
    moderate one between 5,000.00 and 15,000.00, under a high one at least
    15,000.00. *)
Theorem shown_cost_agrees_with_tier (q : Q) (n : Z) :
  format_2f (Fin q) = Hundredths n ->
  match classify (Fin q) with
  | Low => n <= 500000
  | Moderate => 500000 <= n <= 1500000
  | High => 1500000 <= n
  end.
Proof.
  intros [= <-]. rewrite classify_Fin.
  destruct (Qle_bool 15000 q) eqn:E15; [| destruct (Qle_bool 5000 q) eqn:E5].
  - apply Qle_bool_iff in E15. apply round_int_nearest_ge.
    change (inject_Z 1500000) with 1500000%Q. lra.
  - apply Qle_bool_iff in E5.
    assert (H15 : (q < 15000)%Q).
    { apply Qnot_le_lt. intros Hle. apply Qle_bool_iff in Hle. congruence. }
    split.
    + apply round_int_nearest_ge. change (inject_Z 500000) with 500000%Q. lra.
    + apply round_int_nearest_le. change (inject_Z 1500000) with 1500000%Q.
      lra.
  - assert (H5 : (q < 5000)%Q).
    { apply Qnot_le_lt. intros Hle. apply Qle_bool_iff in Hle. congruence. }
    apply round_int_nearest_le. change (inject_Z 500000) with 500000%Q. lra.
Qed.

(** X3: the commentary for every float, numbers or not: low for minus
    infinity and the numbers below 5000, moderate for the numbers from 5000
    up to 15000 only, high for the numbers from 15000 on and also, through
    the [else], for plus infinity and for NaN. *)
Theorem classify_every_float (x : pyfloat) :
  (classify x = Low <-> x = NInf \/ exists q, x = Fin q /\ (q < 5000)%Q)
  /\ (classify x = Moderate <->
        exists q, x = Fin q /\ (5000 <= q)%Q /\ (q < 15000)%Q)
  /\ (classify x = High <->
        x = NaN \/ x = PInf \/ exists q, x = Fin q /\ (15000 <= q)%Q).
Proof.
  destruct x as [q | | |].
  - rewrite classify_Fin.
    destruct (Qle_bool 15000 q) eqn:E15; [| destruct (Qle_bool 5000 q) eqn:E5].
    + apply Qle_bool_iff in E15.
      (split; [| split]); split; intros H; try discriminate; eauto.
      * destruct H as [H | (q' & [= <-] & H)]; [discriminate | lra].
      * destruct H as (q' & [= <-] & H1 & H2). lra.
    + apply Qle_bool_iff in E5.
      assert (H15 : (q < 15000)%Q).
      { apply Qnot_le_lt. intros Hle. apply Qle_bool_iff in Hle. congruence. }
      (split; [| split]); split; intros H; try discriminate; eauto.
      * destruct H as [H | (q' & [= <-] & H)]; [discriminate | lra].
      * destruct H as [H | [H | (q' & [= <-] & H)]]; try discriminate. lra.
    + assert (H5 : (q < 5000)%Q).
      { apply Qnot_le_lt. intros Hle. apply Qle_bool_iff in Hle. congruence. }
      (split; [| split]); split; intros H; try discriminate; eauto.
      * destruct H as (q' & [= <-] & H1 & H2). lra.
      * destruct H as [H | [H | (q' & [= <-] & H)]]; try discriminate. lra.
  - (split; [| split]); split; intros H; try discriminate; eauto.
    + destruct H as [H | (q' & H & _)]; discriminate.
    + destruct H as (q' & H & _); discriminate.
  - (split; [| split]); split; intros H; try discriminate; eauto.
    + destruct H as (q' & H & _); discriminate.
    + destruct H as [H | [H | (q' & H & _)]]; discriminate.
  - (split; [| split]); split; intros H; try discriminate; eauto.
    + destruct H as [H | (q' & H & _)]; discriminate.
    + destruct H as (q' & H & _); discriminate.
Qed.

Lemma round_int_nearest_close (s : Q) :
  (Qabs (inject_Z (Binary64.round_int Binary64.Nearest s) - s) <= 1 # 2)%Q.
Proof.
  unfold Binary64.round_int.
  pose proof (round_div_nearest_bounds (Qnum s) (Z.pos (Qden s)) ltac:(lia))
    as Hb.
  set (k := Binary64.round_div Binary64.Nearest (Qnum s) (Z.pos (Qden s)))
    in *.
  destruct s as [N D]. cbn [Qnum Qden] in *.
  unfold Qle, Qabs, Qminus, Qplus, Qopp, inject_Z. cbn [Qnum Qden].
  rewrite Pos2Z.inj_mul.
  replace (k * Z.pos D + - N * 1) with (k * Z.pos D - N) by ring.
  lia.
Qed.

(** X4: the amount shown is a nearest hundredth of the cost: it differs
    from the cost by at most half a hundredth. *)
Theorem shown_cost_nearest (q : Q) (n : Z) :
  format_2f (Fin q) = Hundredths n ->
  (Qabs (inject_Z n - q * 100) <= 1 # 2)%Q.
Proof. intros [= <-]. apply round_int_nearest_close. Qed.

Lemma round_int_nearest_lt (s1 s2 : Q) :
  (s1 < s2)%Q ->
  Binary64.round_int Binary64.Nearest s1
  <= Binary64.round_int Binary64.Nearest s2.
Proof.
  intros Hlt.
  pose proof (round_int_nearest_close s1) as H1.
  pose proof (round_int_nearest_close s2) as H2.
  apply Qabs_Qle_condition in H1, H2.
  set (k1 := Binary64.round_int Binary64.Nearest s1) in *.
  set (k2 := Binary64.round_int Binary64.Nearest s2) in *.
  destruct (Z_le_gt_dec k1 k2) as [Hle | Hgt]; [exact Hle | exfalso].
  assert (Hq : (inject_Z k2 + 1 <= inject_Z k1)%Q).
  { unfold Qle, Qplus, inject_Z. cbn [Qnum Qden]. lia. }
  lra.
Qed.

(** X5: of two costs the larger is never shown as the smaller amount. *)
Theorem shown_cost_monotone (q1 q2 : Q) (n1 n2 : Z) :
  (q1 < q2)%Q ->
  format_2f (Fin q1) = Hundredths n1 ->
  format_2f (Fin q2) = Hundredths n2 ->
  n1 <= n2.
Proof.
  intros Hlt [= <-] [= <-]. apply round_int_nearest_lt. lra.
Qed.

(** X6: a larger cost never gets a lower commentary. *)
Theorem classify_monotone (q1 q2 : Q) :
  (q1 <= q2)%Q ->
  tier_rank (classify (Fin q1)) <= tier_rank (classify (Fin q2)).
Proof.
  intros Hle. rewrite !classify_Fin.
  destruct (Qle_bool 15000 q1) eqn:A1, (Qle_bool 5000 q1) eqn:B1,
           (Qle_bool 15000 q2) eqn:A2, (Qle_bool 5000 q2) eqn:B2;
    cbn; try lia; exfalso;
    repeat match goal with
    | H : Qle_bool _ _ = true |- _ => apply Qle_bool_iff in H
    | H : Qle_bool ?a ?b = false |- _ =>
        assert (b < a)%Q
          by (apply Qnot_le_lt; intros Hc; apply Qle_bool_iff in Hc;
              congruence);
        clear H
    end; lra.
Qed.

(** ** The BMI over all integers and over the sliders *)

Section BMIExtra.

Variable pow_rounds_up : Q -> bool.

Lemma bmi_calculated_outcomes (h w : Z) :
  bmi_calculated pow_rounds_up h w <> Ok NaN
  /\ (forall e, bmi_calculated pow_rounds_up h w = Err e ->
        e = ZeroDivisionError \/ e = OverflowError).
Proof.
  unfold bmi_calculated, PyFloat.int_truediv. cbn [Z.eqb].
  destruct (Binary64.RN (inject_Z h / inject_Z 100)) as [m |];
    cbv [mbind result_bind]; [| split; [discriminate | intros e [= <-]; auto]].
  unfold PyFloat.pow2.
  destruct (Binary64.round _ (Qabs m * Qabs m)) as [s |];
    [| split; [discriminate | intros e [= <-]; auto]].
  unfold PyFloat.int_div_float, PyFloat.of_int.
  destruct (Binary64.RN (inject_Z w)) as [x |]; cbv [mbind result_bind];
    [| split; [discriminate | intros e [= <-]; auto]].
  destruct (Qeq_bool s 0); [split; [discriminate | intros e [= <-]; auto] |].
  destruct (Binary64.RN (x / s)) as [z |].
  - unfold PyFloat.round2.
    destruct (Binary64.RN _) as [r |]; split; try discriminate;
      intros e [= <-]; auto.
  - destruct (Qle_bool 0 (x / s)); split; discriminate.
Qed.

(** X7: for every two integers, also outside the sliders, the BMI
    expression never gives NaN, and the only exceptions it raises are
    [ZeroDivisionError] and [OverflowError]. *)
Theorem bmi_never_nan (h w : Z) :
  bmi_calculated pow_rounds_up h w <> Ok NaN
  /\ (forall e, bmi_calculated pow_rounds_up h w = Err e ->
        e = ZeroDivisionError \/ e = OverflowError).
Proof. exact (bmi_calculated_outcomes h w). Qed.

Lemma literal_close_826 :
  (Qabs (Binary64.literal 826 100 * 100 - inject_Z 826) <= 1 # 1000)%Q.
Proof. apply Qle_bool_iff. vm_compute. reflexivity. Qed.

Lemma literal_close_7653 :
  (Qabs (Binary64.literal 7653 100 * 100 - inject_Z 7653) <= 1 # 1000)%Q.
Proof. apply Qle_bool_iff. vm_compute. reflexivity. Qed.

Lemma bmi_slider_bounds (h w : Z) :
  height_slider h -> weight_slider w ->
  exists b,
    bmi_calculated pow_rounds_up h w = Ok (Fin b)
    /\ (Binary64.literal 826 100 <= b)%Q
    /\ (b <= Binary64.literal 7653 100)%Q.
Proof.
  intros Hh Hw.
  destruct (bmi_slider pow_rounds_up h w Hh Hw) as (k & Hk & _ & Hz & Hf).
  exists (Binary64.literal k 100). split; [exact Hk |].
  unfold height_slider in Hh. unfold weight_slider in Hw.
  assert (HH : 19600 <= h * h <= 48400) by nia.
  set (H := h * h) in *. clearbody H.
  assert (Hlo : 826 <= k) by nia.
  assert (Hhi : k <= 7653) by nia.
  split.
  - destruct (Z.eq_dec k 826) as [-> | Hne]; [apply Qle_refl |].
    apply Qlt_le_weak.
    apply (literal_lt _ _ 826 k literal_close_826 Hf). lia.
  - destruct (Z.eq_dec k 7653) as [-> | Hne]; [apply Qle_refl |].
    apply Qlt_le_weak.
    apply (literal_lt _ _ k 7653 Hf literal_close_7653). lia.
Qed.

(** X8: over the sliders the BMI lies between 8.26 and 76.53, and both
    ends are taken: at 220 cm with 40 kg and at 140 cm with 150 kg. *)
Theorem bmi_slider_range (h w : Z) :
  height_slider h -> weight_slider w ->
  (exists b,
      bmi_calculated pow_rounds_up h w = Ok (Fin b)
      /\ (Binary64.literal 826 100 <= b)%Q
      /\ (b <= Binary64.literal 7653 100)%Q)
  /\ bmi_calculated pow_rounds_up 220 40 = Ok (Fin (Binary64.literal 826 100))
  /\ bmi_calculated pow_rounds_up 140 150
     = Ok (Fin (Binary64.literal 7653 100)).
Proof.
  intros Hh Hw. split; [exact (bmi_slider_bounds h w Hh Hw) |]. split.
  - destruct (bmi_calculated_direction pow_rounds_up 220 40) as [[] ->];
      vm_compute; reflexivity.
  - destruct (bmi_calculated_direction pow_rounds_up 140 150) as [[] ->];
      vm_compute; reflexivity.
Qed.

End BMIExtra.

(** ** Runs on the values of the form *)

Lemma input_data_inv (w : widgets) (b : pyfloat) (x : FeatureVector) :
  input_data w b = Ok x ->
  f_age x = age w /\ f_sex x = sex_num (sex w) /\ f_bmi x = b
  /\ f_children x = children w /\ f_smoker x = smoker_num (smoker w)
  /\ region_num (region w) = Ok (f_region x).
Proof.
  unfold input_data. destruct (region_num (region w)) as [n | e];
    cbv [mbind result_bind mret result_ret]; [| discriminate].
  intros [= <-]. cbn. tauto.
Qed.

Lemma form_region (w : widgets) :
  form_input w -> exists n, region_num (region w) = Ok n /\ 0 <= n <= 3.
Proof.
  intros (_ & _ & _ & _ & _ & _ & Hregion).
  apply In_nth_error in Hregion. destruct Hregion as [i Hi].
  exists (Z.of_nat i). split; [exact (region_options_code i _ Hi) |].
  assert (Hlt : (i < length region_options)%nat)
    by (apply nth_error_Some; congruence).
  cbn in Hlt. lia.
Qed.

Lemma model_of_error (file : file_state) (cache : option artifact) (e : exn) :
  model_of file cache = Err e -> forall key, e <> KeyError key.
Proof.
  destruct cache; [discriminate |].
  destruct file as [| | [] |]; cbn; intros [= <-]; discriminate.
Qed.

Section ScriptExtra.

Variable pow_rounds_up : Q -> bool.

Lemma rerun_predict_inv (file : file_state) (w : widgets)
    (cache : option artifact) (x : FeatureVector) :
  In (Predict x) (page (snd (rerun pow_rounds_up file w cache))) ->
  button w = true
  /\ exists m b,
       model_of file cache = Ok m
       /\ bmi_calculated pow_rounds_up (height w) (weight w) = Ok b
       /\ input_data w b = Ok x
       /\ nth_error (page (snd (rerun pow_rounds_up file w cache))) 0
          = Some (BmiMetric b).
Proof.
  rewrite rerun_cases.
  destruct (model_of file cache) as [m | e]; [| intros []].
  cbv zeta.
  destruct (bmi_calculated pow_rounds_up (height w) (weight w)) as [b | e];
    [| intros []].
  destruct (button w); [| intros [[=] | []]].
  destruct (input_data w b) as [x' | e] eqn:Hx; [| intros [[=] | []]].
  destruct (predict m x') as [c | e]; cbn [snd page].
  - intros [[=] | [[= <-] | [[=] | [[=] | [[=] | []]]]]].
    split; [reflexivity |]. exists m, b. auto.
  - intros [[=] | [[= <-] | []]].
    split; [reflexivity |]. exists m, b. auto.
Qed.

(** X9: whenever [predict] is called, the button was pressed and the frame
    holds the age and the children as entered, the codes of the sex, the
    smoker and the region entered, and as BMI the very value that the BMI
    expression gave and that the first metric of the page shows. *)
Theorem predicted_frame (file : file_state) (w : widgets)
    (cache : option artifact) (x : FeatureVector) :
  In (Predict x) (page (snd (rerun pow_rounds_up file w cache))) ->
  button w = true
  /\ f_age x = age w /\ f_children x = children w
  /\ f_sex x = sex_num (sex w) /\ f_smoker x = smoker_num (smoker w)
  /\ region_num (region w) = Ok (f_region x)
  /\ bmi_calculated pow_rounds_up (height w) (weight w) = Ok (f_bmi x)
  /\ nth_error (page (snd (rerun pow_rounds_up file w cache))) 0
     = Some (BmiMetric (f_bmi x)).
Proof.
  intros Hin.
  destruct (rerun_predict_inv file w cache x Hin)
    as (Hbutton & m & b & _ & Hb & Hx & Hfirst).
  destruct (input_data_inv w b x Hx) as (Ha & Hs & Hbmi & Hc & Hsm & Hr).
  subst b. tauto.
Qed.

(** X10: on values the form can give, every frame passed to [predict] is
    in the domain of the form: age 18..100, sex and smoker 0 or 1, children
    0..10, region 0..3 and a BMI in 8.26..76.53. *)
Theorem form_frame_in_domain (file : file_state) (w : widgets)
    (cache : option artifact) (x : FeatureVector) :
  form_input w ->
  In (Predict x) (page (snd (rerun pow_rounds_up file w cache))) ->
  frame_in_domain x.
Proof.
  intros Hform Hin.
  destruct (rerun_predict_inv file w cache x Hin)
    as (_ & m & b & _ & Hb & Hx & _).
  destruct (input_data_inv w b x Hx) as (Ha & Hs & Hbmi & Hc & Hsm & Hr).
  destruct (form_region w Hform) as (n & Hn & Hrange).
  destruct Hform as (Hh & Hw & Hage & _ & Hchildren & _ & _).
  destruct (bmi_slider_bounds pow_rounds_up _ _ Hh Hw)
    as (b' & Hb' & Hlo & Hhi).
  unfold frame_in_domain. rewrite Ha, Hs, Hc, Hsm, Hbmi.
  assert (Hreg : f_region x = n) by congruence.
  split; [exact Hage |]. split.
  { unfold sex_num. case_decide; auto. }
  split; [exact Hchildren |]. split.
  { unfold smoker_num. case_decide; auto. }
  split; [lia |].
  exists b'. split; [congruence | split; assumption].
Qed.

(** X11: on values the form can give, a run raises only what the loading
    of the model raised or what [predict] raised on the frame it was
    called with: the script's own steps (the BMI, the encoding) raise
    nothing. *)
Theorem form_run_errors (file : file_state) (w : widgets)
    (cache : option artifact) (e : exn) :
  form_input w ->
  fst (rerun pow_rounds_up file w cache) = Err e ->
  model_of file cache = Err e
  \/ exists m x,
       model_of file cache = Ok m /\ button w = true
       /\ In (Predict x) (page (snd (rerun pow_rounds_up file w cache)))
       /\ predict m x = Err e.
Proof.
  intros Hform.
  destruct (form_region w Hform) as (n & Hn & _).
  destruct Hform as (Hh & Hw & _).
  destruct (bmi_slider_bounds pow_rounds_up _ _ Hh Hw) as (b & Hb & _).
  rewrite rerun_cases.
  destruct (model_of file cache) as [m | e0]; [| cbn; intros [= <-]; auto].
  cbv zeta. rewrite Hb.
  destruct (button w); [| discriminate].
  unfold input_data. rewrite Hn. cbv [mbind result_bind mret result_ret].
  match goal with |- context [predict m ?x] => set (x0 := x) end.
  destruct (predict m x0) as [c | e0] eqn:Hp; [discriminate |].
  cbn. intros [= <-]. right. exists m, x0. auto 6.
Qed.


End ScriptExtra.

Section StoreExtra.

Variable pow_rounds_up : Q -> bool.

Lemma rerun_loaded (file file' : file_state) (w : widgets) (m : artifact) :
  rerun pow_rounds_up file w (Some m) = rerun pow_rounds_up file' w (Some m)
  /\ resource_cache (snd (rerun pow_rounds_up file w (Some m))) = Some m.
Proof.
  split.
  - rewrite !rerun_cases. reflexivity.
  - rewrite rerun_store. reflexivity.
Qed.

Lemma session_loaded (runs : list (file_state * widgets)) (m : artifact) :
  session pow_rounds_up runs (Some m)
  = session pow_rounds_up (map (fun run => (Missing, snd run)) runs) (Some m)
  /\ snd (session pow_rounds_up runs (Some m)) = Some m.
Proof.
  induction runs as [| [file w] runs [IHout IHstore]]; [split; reflexivity |].
  cbn [session map snd].
  destruct (rerun_loaded file Missing w m) as [Hsame Hstore].
  rewrite <- Hsame.
  destruct (rerun pow_rounds_up file w (Some m)) as [r s].
  cbn [snd] in Hstore. rewrite Hstore, <- IHout.
  destruct (session pow_rounds_up runs (Some m)) as [rest c].
  cbn [snd] in *. split; [reflexivity | exact IHstore].
Qed.

(** X13: once the model is in the store the file is never read again: the
    reruns give what they would give with the file gone, and the store
    still holds the same model at the end, whatever became of the file. *)
Theorem store_is_sticky (runs : list (file_state * widgets)) (m : artifact) :
  session pow_rounds_up runs (Some m)
  = session pow_rounds_up (map (fun run => (Missing, snd run)) runs) (Some m)
  /\ snd (session pow_rounds_up runs (Some m)) = Some m.
Proof. exact (session_loaded runs m). Qed.

(** X14: starting from an empty store, the store ends with the model of the
    first rerun that found a pickle (also when that run raised later on),
    and empty when no rerun found one. *)
Theorem first_load_wins (runs : list (file_state * widgets)) :
  snd (session pow_rounds_up runs None) = first_pickled runs.
Proof.
  induction runs as [| [file w] runs IH]; [reflexivity |].
  cbn [session first_pickled].
  pose proof (rerun_store pow_rounds_up file w None) as Hstore.
  destruct (rerun pow_rounds_up file w None) as [r s]. cbn [snd] in Hstore.
  rewrite Hstore. unfold model_of.
  destruct file as [| | why | m]; cbn [load_model_body].
  - destruct (session pow_rounds_up runs None) as [rest c]. exact IH.
  - destruct (session pow_rounds_up runs None) as [rest c]. exact IH.
  - destruct (session pow_rounds_up runs None) as [rest c]. exact IH.
  - destruct (session_loaded runs m) as [_ Hm].
    destruct (session pow_rounds_up runs (Some m)) as [rest c]. exact Hm.
Qed.

End StoreExtra.

(** ** Instances *)

Lemma region_options_encode_witness :
  region_num "Northwest" = Ok 2
  /\ exists n, region_num "Northeast" = Ok n /\ 0 <= n <= 3.
Proof.
  destruct region_options_encode as (Hcode & Hin & _).
  split.
  - apply (Hcode 2%nat). reflexivity.
  - apply Hin. cbn. tauto.
Defined.

Lemma classify_monotone_witness :
  tier_rank (classify (Fin 4000)) <= tier_rank (classify (Fin 20000)).
Proof. apply classify_monotone. unfold Qle. cbn. lia. Defined.

Lemma shown_cost_nearest_witness :
  (Qabs (inject_Z 500000 - Binary64.literal 4999996 1000 * 100) <= 1 # 2)%Q.
Proof. apply shown_cost_nearest. vm_compute. reflexivity. Defined.

Lemma shown_cost_agrees_with_tier_witness :
  match classify (Fin (Binary64.literal 4999996 1000)) with
  | Low => 500000 <= 500000
  | Moderate => 500000 <= 500000 <= 1500000
  | High => 1500000 <= 500000
  end.
Proof. apply shown_cost_agrees_with_tier. vm_compute. reflexivity. Defined.

Lemma shown_cost_monotone_witness : 499999 <= 500000.
Proof.
  apply (shown_cost_monotone (499999 # 100) (Binary64.literal 4999996 1000)).
  - vm_compute. reflexivity.
  - vm_compute. reflexivity.
  - vm_compute. reflexivity.
Defined.

Lemma bmi_slider_range_witness :
  (exists b,
      bmi_calculated nearest_pow 175 70 = Ok (Fin b)
      /\ (Binary64.literal 826 100 <= b)%Q
      /\ (b <= Binary64.literal 7653 100)%Q)
  /\ bmi_calculated nearest_pow 220 40 = Ok (Fin (Binary64.literal 826 100))
  /\ bmi_calculated nearest_pow 140 150
     = Ok (Fin (Binary64.literal 7653 100)).
Proof.
  apply (bmi_slider_range nearest_pow 175 70).
  - unfold height_slider. lia.
  - unfold weight_slider. lia.
Defined.

Lemma default_widgets_form : form_input default_widgets.
Proof.
  unfold form_input, height_slider, weight_slider. cbn.
  repeat split; try lia; tauto.
Defined.

Lemma default_frame_predicted :
  In (Predict default_frame)
    (page (snd (rerun nearest_pow (Pickled sample_model) default_widgets
                  None))).
Proof. vm_compute. right. left. reflexivity. Defined.

Lemma predicted_frame_witness :
  button default_widgets = true
  /\ f_age default_frame = age default_widgets
  /\ f_children default_frame = children default_widgets
  /\ f_sex default_frame = sex_num (sex default_widgets)
  /\ f_smoker default_frame = smoker_num (smoker default_widgets)
  /\ region_num (region default_widgets) = Ok (f_region default_frame)
  /\ bmi_calculated nearest_pow (height default_widgets)
       (weight default_widgets) = Ok (f_bmi default_frame)
  /\ nth_error
       (page (snd (rerun nearest_pow (Pickled sample_model) default_widgets
                     None))) 0
     = Some (BmiMetric (f_bmi default_frame)).
Proof.
  apply (predicted_frame nearest_pow (Pickled sample_model) default_widgets
           None default_frame).
  exact default_frame_predicted.
Defined.

Lemma form_frame_in_domain_witness : frame_in_domain default_frame.
Proof.
  apply (form_frame_in_domain nearest_pow (Pickled sample_model)
           default_widgets None default_frame).
  - exact default_widgets_form.
  - exact default_frame_predicted.
Defined.

Lemma form_run_errors_witness :
  model_of (Pickled failing_model) None = Err InferenceError
  \/ exists m x,
       model_of (Pickled failing_model) None = Ok m
       /\ button default_widgets = true
       /\ In (Predict x)
            (page (snd (rerun nearest_pow (Pickled failing_model)
                          default_widgets None)))
       /\ predict m x = Err InferenceError.
Proof.
  apply (form_run_errors nearest_pow (Pickled failing_model) default_widgets
           None InferenceError).
  - exact default_widgets_form.
  - vm_compute. reflexivity.
Defined.


(** * Failed loads, unknown categories and the model object *)

Section CorrectedClaims.

Variable pow_rounds_up : Q -> bool.

Lemma session_app (runs runs' : list (file_state * widgets))
    (cache : option artifact) :
  session pow_rounds_up (runs ++ runs') cache =
    ((fst (session pow_rounds_up runs cache)
        ++ fst (session pow_rounds_up runs'
                  (snd (session pow_rounds_up runs cache))))%list,
     snd (session pow_rounds_up runs'
            (snd (session pow_rounds_up runs cache)))).
Proof.
  revert cache. induction runs as [| [file w] runs IH]; intros cache.
  - cbn. destruct (session pow_rounds_up runs' cache). reflexivity.
  - cbn [app session].
    destruct (rerun pow_rounds_up file w cache) as [r s].
    rewrite IH.
    destruct (session pow_rounds_up runs (resource_cache s)) as [rest c].
    reflexivity.
Qed.

(** On the values of the form a run with the model at hand and the button
    pressed calls [predict]. *)
Lemma form_run_predicts (file : file_state) (w : widgets)
    (cache : option artifact) (m : artifact) :
  model_of file cache = Ok m ->
  height_slider (height w) -> weight_slider (weight w) ->
  button w = true ->
  forall n, region_num (region w) = Ok n ->
  exists b,
    bmi_calculated pow_rounds_up (height w) (weight w) = Ok b
    /\ nth_error (page (snd (rerun pow_rounds_up file w cache))) 1
       = Some (Predict {| f_age := age w; f_sex := sex_num (sex w);
                          f_bmi := b; f_children := children w;
                          f_smoker := smoker_num (smoker w);
                          f_region := n |})
    /\ fst (rerun pow_rounds_up file w cache)
       = match predict m {| f_age := age w; f_sex := sex_num (sex w);
                            f_bmi := b; f_children := children w;
                            f_smoker := smoker_num (smoker w);
                            f_region := n |} with
         | Ok _ => Ok tt
         | Err e => Err e
         end.
Proof.
  intros Hm Hh Hw Hbutton n Hn.
  destruct (bmi_slider pow_rounds_up _ _ Hh Hw) as (k & Hk & _).
  exists (Fin (Binary64.literal k 100)). split; [exact Hk |].
  rewrite rerun_cases, Hm. cbv zeta. rewrite Hk, Hbutton.
  unfold input_data. rewrite Hn. cbv [mbind result_bind mret result_ret].
  destruct (predict m _); split; reflexivity.
Qed.


(** C3 as amended: with the model at hand, slider values and the button
    pressed, a region whose lower-casing is none of the four names makes
    the lookup raise a [KeyError] when only the BMI metric is on the page;
    for any widget values such a region makes the run fail without a call
    of [predict].  A sex or a smoker outside the offered values is not
    rejected: with a region that has a code, [predict] is called, on the
    frame with the entered age and children, the region's code, and 1 for
    every sex but Female and every smoker but No, and the run fails only
    if [predict] does. *)
Theorem only_unknown_region_rejected :
  (forall file w cache m,
      model_of file cache = Ok m ->
      height_slider (height w) -> weight_slider (weight w) ->
      button w = true ->
      unknown_region (region w) ->
      exists key b,
        rerun pow_rounds_up file w cache
        = (Err (KeyError key),
           {| resource_cache := Some m; page := [BmiMetric b] |}))
  /\ (forall file w cache,
        button w = true ->
        unknown_region (region w) ->
        is_ok (fst (rerun pow_rounds_up file w cache)) = false
        /\ (forall x,
              ~ In (Predict x)
                  (page (snd (rerun pow_rounds_up file w cache)))))
  /\ (forall file w cache m,
        model_of file cache = Ok m ->
        height_slider (height w) -> weight_slider (weight w) ->
        button w = true ->
        ~ unknown_region (region w) ->
        exists b n x,
          region_num (region w) = Ok n
          /\ x = {| f_age := age w;
                    f_sex := (if decide (sex w = "Female") then 0 else 1);
                    f_bmi := b; f_children := children w;
                    f_smoker := (if decide (smoker w = "No") then 0 else 1);
                    f_region := n |}
          /\ nth_error (page (snd (rerun pow_rounds_up file w cache))) 1
             = Some (Predict x)
          /\ fst (rerun pow_rounds_up file w cache)
             = match predict m x with
               | Ok _ => Ok tt
               | Err e => Err e
               end).
Proof.
  split; [| split].
  - intros file w cache m Hm Hh Hw Hbutton Hregion.
    destruct (bmi_slider pow_rounds_up _ _ Hh Hw) as (k & Hk & _).
    exists (PyStr.lower (region w)), (Fin (Binary64.literal k 100)).
    rewrite rerun_cases, Hm. cbv zeta. rewrite Hk, Hbutton.
    unfold input_data.
    replace (region_num (region w))
      with (@Err Z (KeyError (PyStr.lower (region w)))); [reflexivity |].
    symmetry. apply region_num_Err. split; [reflexivity | exact Hregion].
  - intros file w cache Hbutton Hregion.
    assert (Hin : forall b, input_data w b
                            = Err (KeyError (PyStr.lower (region w)))).
    { intros b. unfold input_data.
      replace (region_num (region w))
        with (@Err Z (KeyError (PyStr.lower (region w)))); [reflexivity |].
      symmetry. apply region_num_Err. split; [reflexivity | exact Hregion]. }
    rewrite rerun_cases.
    destruct (model_of file cache) as [m | e]; cbv zeta.
    + destruct (bmi_calculated pow_rounds_up (height w) (weight w))
        as [b | e].
      * rewrite Hbutton, Hin. cbn [fst snd page is_ok].
        split; [reflexivity |]. intros x [Hx | []]. discriminate.
      * cbn [fst snd page is_ok]. split; [reflexivity | intros x []].
    + cbn [fst snd page is_ok]. split; [reflexivity | intros x []].
  - intros file w cache m Hm Hh Hw Hbutton Hknown.
    destruct (known_region_dec _ Hknown) as [n Hn].
    destruct (form_run_predicts file w cache m Hm Hh Hw Hbutton n Hn)
      as (b & _ & Hnth & Hfst).
    exists b, n. eexists. split; [exact Hn |].
    split; [reflexivity |]. split; [exact Hnth | exact Hfst].
Qed.

End CorrectedClaims.

(** ** The model as an object *)

Section ModelObjectProperties.

Variable object : Type.
Variable object_predict :
  object -> FeatureVector -> result pyfloat * object.
Variable pow_rounds_up : Q -> bool.

(** The script changes the object only through the one call of [predict]. *)
Lemma object_rerun_object (w : widgets) (model : object) :
  snd (object_rerun object_predict pow_rounds_up w model) = model
  \/ exists x,
       nth_error (snd (fst (object_rerun object_predict pow_rounds_up w model)))
         1 = Some (Predict x)
       /\ snd (object_rerun object_predict pow_rounds_up w model)
          = snd (object_predict model x).
Proof.
  unfold object_rerun.
  destruct (bmi_calculated pow_rounds_up (height w) (weight w)) as [b | e];
    [| left; reflexivity].
  destruct (button w); [| left; reflexivity].
  destruct (input_data w b) as [x | e]; [| left; reflexivity].
  right. exists x.
  destruct (object_predict model x) as [[c | e] model']; split; reflexivity.
Qed.

Lemma object_session_keeps (ws : list widgets) (model : object) :
  (forall model x, snd (object_predict model x) = model) ->
  snd (object_session object_predict pow_rounds_up ws model) = model.
Proof.
  intros Hkeeps. revert model.
  induction ws as [| w ws IH]; intros model; [reflexivity |].
  cbn [object_session].
  assert (Hrun : snd (object_rerun object_predict pow_rounds_up w model)
                 = model).
  { destruct (object_rerun_object w model) as [H | (x & _ & H)];
      [exact H | rewrite H; apply Hkeeps]. }
  destruct (object_rerun object_predict pow_rounds_up w model)
    as [[r shown] model'].
  cbn [snd] in Hrun. subst model'.
  specialize (IH model).
  destruct (object_session object_predict pow_rounds_up ws model)
    as [rest model''].
  exact IH.
Qed.


End ModelObjectProperties.

(** An [artifact], whose [predict] is a function, is such an object, and on
    it the run with the object is the run of the script with the model in
    the store. *)
Lemma object_rerun_of_artifact (pow_rounds_up : Q -> bool)
    (file : file_state) (w : widgets) (m : artifact) :
  object_rerun as_object pow_rounds_up w m
  = (fst (rerun pow_rounds_up file w (Some m)),
     page (snd (rerun pow_rounds_up file w (Some m))), m).
Proof.
  rewrite rerun_cases. unfold object_rerun, as_object. cbn [model_of].
  cbv zeta.
  destruct (bmi_calculated pow_rounds_up (height w) (weight w)) as [b | e];
    [| reflexivity].
  destruct (button w); [| reflexivity].
  destruct (input_data w b) as [x | e]; [| reflexivity].
  destruct (predict m x); reflexivity.
Qed.





Lemma only_unknown_region_rejected_witness :
  (exists key b,
      rerun nearest_pow (Pickled sample_model) midwest_widgets None
      = (Err (KeyError key),
         {| resource_cache := Some sample_model; page := [BmiMetric b] |}))
  /\ exists b n x,
       region_num (region other_widgets) = Ok n
       /\ x = {| f_age := 30; f_sex := 1; f_bmi := b; f_children := 0;
                 f_smoker := 1; f_region := n |}
       /\ nth_error
            (page (snd (rerun nearest_pow (Pickled sample_model)
                          other_widgets None))) 1
          = Some (Predict x)
       /\ fst (rerun nearest_pow (Pickled sample_model) other_widgets None)
          = match predict sample_model x with
            | Ok _ => Ok tt
            | Err e => Err e
            end.
Proof.
  destruct (only_unknown_region_rejected nearest_pow)
    as (Hunknown & _ & Hknown).
  split.
  - apply (Hunknown (Pickled sample_model) midwest_widgets None sample_model).
    + reflexivity.
    + unfold height_slider. cbn. lia.
    + unfold weight_slider. cbn. lia.
    + reflexivity.
    + unfold unknown_region. vm_compute. repeat split; discriminate.
  - apply (Hknown (Pickled sample_model) other_widgets None sample_model).
    + reflexivity.
    + unfold height_slider. cbn. lia.
    + unfold weight_slider. cbn. lia.
    + reflexivity.
    + unfold unknown_region. vm_compute. intros (_ & _ & _ & H). apply H.
      reflexivity.
Defined.
